(** * monkeytype/config.py: the configuration contract and its defaults

    A shallow embedding of [monkeytype/config.py]: the module-level
    computation of [LIB_PATHS], the predicate [default_code_filter], the
    abstract class [Config] with its default method bodies, and the concrete
    class [DefaultConfig].

    Python sets are stdpp [gset]s, dictionaries ([os.environ], the attribute
    dictionary of [sys]) are [gmap]s, and code that reads interpreter state or
    may raise runs in a small state-and-exception monad [Py]. *)

From stdpp Require Import gmap strings list.

Local Open Scope string_scope.

(** ** Python values and results *)

(** The values an attribute such as [sys.real_prefix] holds here. *)
Inductive PyVal : Type :=
| PyNone
| PyBool (b : bool)
| PyStr (s : string).

(** Truth value testing, as [if v:] does it. *)
Definition truthy (v : PyVal) : bool :=
  match v with
  | PyNone => false
  | PyBool b => b
  | PyStr s => negb (String.eqb s "")
  end.

(** Exceptions this module can let escape: its own two, and whatever a
    collaborator raises. *)
Inductive PyExc : Type :=
| AttributeError (obj attr : string)
| TypeError_abstract (missing : list string)
| CollaboratorError (msg : string).

Inductive Result (A : Type) : Type :=
| Ok (a : A)
| Raise (e : PyExc).
Arguments Ok {A} a.
Arguments Raise {A} e.

(** [getattr(obj, name)] with no default: the attribute dictionary is read,
    and a missing name raises [AttributeError]. *)
Definition getattr (objname : string) (attrs : gmap string PyVal)
    (name : string) : Result PyVal :=
  match attrs !! name with
  | Some v => Ok v
  | None => Raise (AttributeError objname name)
  end.

(** ** Path resolver (module level, lines 73-80) *)

Section PathResolver.

(** [sysconfig.get_path(name)] and
    [sysconfig.get_path(name, vars={'installed_base': b})]: the second
    argument is the optional override; the result is [Optional[str]]. *)
Variable sysconfig_get_path : string -> option PyVal -> option string.

(** [{sysconfig.get_path(n) for n in ['stdlib', 'purelib', 'platlib']}] *)
Definition lib_paths : gset (option string) :=
  list_to_set ((fun n => sysconfig_get_path n None)
                 <$> ["stdlib"; "purelib"; "platlib"]).

(** [lib_paths.add(sysconfig.get_path('stdlib', vars=...))] under
    [if venv_real_prefix:] *)
Definition lib_paths_venv (venv_real_prefix : PyVal) : gset (option string) :=
  if truthy venv_real_prefix
  then {[ sysconfig_get_path "stdlib" (Some venv_real_prefix) ]} ∪ lib_paths
  else lib_paths.

(** [tuple(p for p in s if p is not None)]. A set is iterated in an order
    the language leaves open; [elements] fixes one. *)
Definition tuple_not_None (s : gset (option string)) : list string :=
  omap id (elements s).

(** Lines 73-80 as a whole: the value bound to [LIB_PATHS], or the
    exception that aborts the import. *)
Definition eval_LIB_PATHS (sys : gmap string PyVal) : Result (list string) :=
  match getattr "sys" sys "real_prefix" with
  | Raise e => Raise e
  | Ok venv_real_prefix => Ok (tuple_not_None (lib_paths_venv venv_real_prefix))
  end.

End PathResolver.

(** ** Interpreter state and the monad of module code *)

(** What the functions of this module can observe: [os.environ], the module
    global [LIB_PATHS], and the state [Ext] owned by the collaborators of
    other modules (the files and connections of the store backend). *)
Record World (Ext : Type) : Type := mkWorld {
  os_environ : gmap string string;
  LIB_PATHS : list string;
  ext : Ext
}.
Arguments mkWorld {Ext} _ _ _.
Arguments os_environ {Ext} _.
Arguments LIB_PATHS {Ext} _.
Arguments ext {Ext} _.

(** A call either returns a value or raises, and leaves a world behind. *)
Definition Py (Ext A : Type) : Type := World Ext -> Result A * World Ext.

#[global] Instance py_ret {Ext} : MRet (Py Ext) :=
  fun A (a : A) w => (Ok a, w).

#[global] Instance py_bind {Ext} : MBind (Py Ext) :=
  fun A B (k : A -> Py Ext B) (m : Py Ext A) w =>
    match m w with
    | (Ok a, w') => k a w'
    | (Raise e, w') => (Raise e, w')
    end.

Definition py_raise {Ext A} (e : PyExc) : Py Ext A := fun w => (Raise e, w).

(** Reading a global or the environment does not change the world. *)
Definition py_read {Ext A} (f : World Ext -> A) : Py Ext A :=
  fun w => (Ok (f w), w).

(** [os.environ.get(key, default)] *)
Definition environ_get {Ext} (key dflt : string) : Py Ext string :=
  py_read (fun w => default dflt (os_environ w !! key)).

(** ** Default code filter (lines 83-85) *)

(** The attributes of a code object the tracer hands over. [co_filename] is
    [None] when the code object carries no file name. *)
Record CodeType : Type := mkCode {
  co_filename : option string;
  co_name : string;
  co_firstlineno : Z
}.

(** [s.startswith(prefixes)] with a tuple of prefixes: some prefix matches. *)
Definition startswith (s : string) (prefixes : list string) : bool :=
  existsb (fun p => String.prefix p s) prefixes.

(** [bool(code.co_filename and not code.co_filename.startswith(LIB_PATHS))]:
    [and] stops at a falsy left operand ([None] or the empty string), and
    only otherwise is the global [LIB_PATHS] read. *)
Definition default_code_filter {Ext} (code : CodeType) : Py Ext bool :=
  match co_filename code with
  | None => mret false
  | Some f =>
      if String.eqb f ""
      then mret false
      else paths ← py_read LIB_PATHS; mret (negb (startswith f paths))
  end.

(** A [CodeFilter] is a callable from code objects to booleans. *)
Definition CodeFilter (Ext : Type) : Type := CodeType -> Py Ext bool.

(** ** The abstract class [Config] (lines 33-70) and [DefaultConfig]
       (lines 88-108) *)

Section Config.

(** Collaborators from other modules of the package: the store, logger and
    rewriter types, the constructor of the store-backed logger
    [CallTraceStoreLogger], the factory [SQLiteStore.make_store] and the
    instance [DEFAULT_REWRITER]. *)
Context {Ext CallTraceStore CallTraceLogger TypeRewriter : Type}.
Variable CallTraceStoreLogger : CallTraceStore -> CallTraceLogger.
Variable SQLiteStore_make_store : string -> Py Ext CallTraceStore.
Variable DEFAULT_REWRITER : TypeRewriter.

(** The body of a class statement deriving from [Config]: for each of the
    five accessors, the method it defines, if any. *)
Record ClassBody : Type := mkClass {
  def_type_rewriter : option (Py Ext TypeRewriter);
  def_trace_store : option (Py Ext CallTraceStore);
  def_trace_logger : option (Py Ext CallTraceLogger);
  def_code_filter : option (Py Ext (option (CodeFilter Ext)));
  def_sample_rate : option (Py Ext (option Z))
}.

(** An instance of [Config]: every accessor resolved to a bound method. *)
Record Config : Type := mkConfig {
  type_rewriter : Py Ext TypeRewriter;
  trace_store : Py Ext CallTraceStore;
  trace_logger : Py Ext CallTraceLogger;
  code_filter : Py Ext (option (CodeFilter Ext));
  sample_rate : Py Ext (option Z)
}.

(** [Config.trace_logger]: [return CallTraceStoreLogger(self.trace_store())],
    with [self.trace_store] the method the instance resolves to. *)
Definition Config_trace_logger (self_trace_store : Py Ext CallTraceStore)
    : Py Ext CallTraceLogger :=
  store ← self_trace_store; mret (CallTraceStoreLogger store).

(** [Config.code_filter]: [return None] *)
Definition Config_code_filter : Py Ext (option (CodeFilter Ext)) := mret None.

(** [Config.sample_rate]: [return None] *)
Definition Config_sample_rate : Py Ext (option Z) := mret None.

(** The names marked [@abstractmethod] in [Config] that a class body leaves
    undefined, in the sorted order in which the interpreter reports them. *)
Definition abstract_methods (cls : ClassBody) : list string :=
  match def_trace_store cls with Some _ => [] | None => ["trace_store"] end
  ++ match def_type_rewriter cls with
     | Some _ => []
     | None => ["type_rewriter"]
     end.

(** Calling the class. [metaclass=ABCMeta] refuses to build an instance of a
    class with abstract methods left; otherwise a method the class body does
    not define is inherited from [Config]. *)
Definition instantiate (cls : ClassBody) : Result Config :=
  match def_type_rewriter cls, def_trace_store cls with
  | Some rewriter, Some store =>
      Ok {| type_rewriter := rewriter;
            trace_store := store;
            trace_logger :=
              default (Config_trace_logger store) (def_trace_logger cls);
            code_filter := default Config_code_filter (def_code_filter cls);
            sample_rate := default Config_sample_rate (def_sample_rate cls) |}
  | _, _ => Raise (TypeError_abstract (abstract_methods cls))
  end.

(** [DefaultConfig.DB_PATH_VAR] *)
Definition DB_PATH_VAR : string := "MT_DB_PATH".

(** [DefaultConfig.type_rewriter]: [return DEFAULT_REWRITER] *)
Definition DefaultConfig_type_rewriter : Py Ext TypeRewriter :=
  mret DEFAULT_REWRITER.

(** [DefaultConfig.trace_store] *)
Definition DefaultConfig_trace_store : Py Ext CallTraceStore :=
  db_path ← environ_get DB_PATH_VAR "monkeytype.sqlite3";
  SQLiteStore_make_store db_path.

(** [DefaultConfig.code_filter]: [return default_code_filter] *)
Definition DefaultConfig_code_filter : Py Ext (option (CodeFilter Ext)) :=
  mret (Some default_code_filter).

(** [class DefaultConfig(Config)]: three accessors defined, [trace_logger]
    and [sample_rate] inherited. *)
Definition DefaultConfig : ClassBody :=
  {| def_type_rewriter := Some DefaultConfig_type_rewriter;
     def_trace_store := Some DefaultConfig_trace_store;
     def_trace_logger := None;
     def_code_filter := Some DefaultConfig_code_filter;
     def_sample_rate := None |}.

(** [DEFAULT_CONFIG = DefaultConfig()] *)
Definition DEFAULT_CONFIG : Result Config := instantiate DefaultConfig.

(** A class body that defines the two required accessors and nothing else. *)
Definition bare_config (rewriter : Py Ext TypeRewriter)
    (store : Py Ext CallTraceStore) : ClassBody :=
  {| def_type_rewriter := Some rewriter;
     def_trace_store := Some store;
     def_trace_logger := None;
     def_code_filter := None;
     def_sample_rate := None |}.

End Config.

Arguments ClassBody : clear implicits.
Arguments Config : clear implicits.

(** ** Sample runtimes *)

(** A POSIX installation: the three named locations, and the standard
    library as it lies under an overriding [installed_base]. *)
Definition posix_get_path (name : string) (installed_base : option PyVal)
    : option string :=
  match installed_base with
  | None =>
      if String.eqb name "stdlib" then Some "/venv/lib/python3.6"
      else if String.eqb name "purelib" then
        Some "/venv/lib/python3.6/site-packages"
      else if String.eqb name "platlib" then
        Some "/venv/lib/python3.6/site-packages"
      else None
  | Some (PyStr base) =>
      if String.eqb name "stdlib" then Some (base +:+ "/lib/python3.6")
      else None
  | Some _ => None
  end.

(** A runtime whose query for the platform-specific location comes back
    empty, and for the pure-Python location absent. *)
Definition gappy_get_path (name : string) (installed_base : option PyVal)
    : option string :=
  if String.eqb name "platlib" then Some ""
  else if String.eqb name "purelib" then None
  else posix_get_path name installed_base.

(** The attributes of [sys] inside a virtualenv, and with the indicator set
    to [None]. *)
Definition sys_in_virtualenv : gmap string PyVal :=
  {[ "real_prefix" := PyStr "/usr" ]}.

Definition sys_real_prefix_None : gmap string PyVal :=
  {[ "real_prefix" := PyNone ]}.

(** A world with no collaborator state, and a store that is its path. *)
Definition sample_world (env : gmap string string) (paths : list string)
    : World unit :=
  mkWorld env paths tt.

Definition path_store (db_path : string) : Py unit string := mret db_path.

(** Code objects and worlds to run the filter on. *)
Definition sample_LIB_PATHS : list string :=
  ["/venv/lib/python3.6"; "/venv/lib/python3.6/site-packages"].

Definition code_in_sibling_dir : CodeType :=
  mkCode (Some "/venv/lib/python3.6-extra/f.py") "f" 1.

Definition code_app_main : CodeType := mkCode (Some "/home/u/app.py") "main" 3.

Definition code_app_helper : CodeType :=
  mkCode (Some "/home/u/app.py") "helper" 40.

(** Sample collaborators: a logger is named after the store it writes to,
    and the rewriter is a unit value. *)
Definition named_logger (store : string) : string := "logger:" +:+ store.

(** A class body that defines [type_rewriter] and forgets [trace_store]. *)
Definition class_without_store : ClassBody unit string string unit :=
  {| def_type_rewriter := Some (mret tt);
     def_trace_store := None;
     def_trace_logger := None;
     def_code_filter := None;
     def_sample_rate := None |}.

(** ** Specification vocabulary *)

(** "The path [s] begins with [p]": [s] is [p] followed by some rest. *)
Definition begins_with (s p : string) : Prop := ∃ rest, s = p +:+ rest.

(** ** More sample inputs *)

(** A code object with a file name and nothing else of interest. *)
Definition code_at (filename : string) : CodeType :=
  mkCode (Some filename) "f" 1.

(** "[P] is a location the runtime resolved": one of the three named
    locations, or the standard library under the real prefix [v] when [v] is
    truthy. *)
Definition resolved_location
    (get_path : string -> option PyVal -> option string) (v : PyVal)
    (P : string) : Prop :=
  get_path "stdlib" None = Some P
  ∨ get_path "purelib" None = Some P
  ∨ get_path "platlib" None = Some P
  ∨ (truthy v = true ∧ get_path "stdlib" (Some v) = Some P).

(** The world a successful import of the module leaves behind on a given
    runtime: [LIB_PATHS] bound to what lines 73-80 computed. *)
Definition imported_world
    (get_path : string -> option PyVal -> option string)
    (sys : gmap string PyVal) : World unit :=
  sample_world ∅ match eval_LIB_PATHS get_path sys with
                 | Ok paths => paths
                 | Raise _ => []
                 end.

(** A runtime that cannot report any location. *)
Definition silent_get_path (name : string) (installed_base : option PyVal)
    : option string := None.

(** * Properties *)

(** ** Path resolver *)

Section PathResolverFacts.

Variable get_path : string -> option PyVal -> option string.

Lemma elem_of_tuple_not_None (s : gset (option string)) (p : string) :
  p ∈ tuple_not_None s ↔ Some p ∈ s.
Proof using Type.
  unfold tuple_not_None. rewrite list_elem_of_omap. split.
  - intros (o & Ho & Hid). apply elem_of_elements in Ho. simpl in Hid.
    by subst o.
  - intros Hin. exists (Some p). split; [by apply elem_of_elements | done].
Qed.

Lemma NoDup_tuple_not_None (s : gset (option string)) :
  NoDup (tuple_not_None s).
Proof using Type.
  unfold tuple_not_None.
  pose proof (NoDup_elements s) as Hnd.
  induction Hnd as [| o l Hnotin Hnd IH]; simpl; [constructor |].
  destruct o as [p |]; simpl; [| exact IH].
  constructor; [| exact IH].
  rewrite list_elem_of_omap. intros ([q |] & Hq & Hid); simpl in Hid; [| done].
  by simplify_eq.
Qed.

Lemma elem_of_lib_paths (o : option string) :
  o ∈ lib_paths get_path ↔
  o = get_path "stdlib" None ∨ o = get_path "purelib" None
  ∨ o = get_path "platlib" None.
Proof using Type.
  unfold lib_paths. simpl.
  rewrite !elem_of_union, !elem_of_singleton, elem_of_empty. tauto.
Qed.

Lemma elem_of_lib_paths_venv (v : PyVal) (o : option string) :
  o ∈ lib_paths_venv get_path v ↔
  o ∈ lib_paths get_path
  ∨ (truthy v = true ∧ o = get_path "stdlib" (Some v)).
Proof using Type.
  unfold lib_paths_venv. destruct (truthy v).
  - rewrite elem_of_union, elem_of_singleton. tauto.
  - split; [by left | by intros [? | [? _]]].
Qed.

Lemma eval_LIB_PATHS_set (sys : gmap string PyVal) (v : PyVal) :
  sys !! "real_prefix" = Some v →
  eval_LIB_PATHS get_path sys
  = Ok (tuple_not_None (lib_paths_venv get_path v)).
Proof using Type. intros Hv. unfold eval_LIB_PATHS, getattr. by rewrite Hv. Qed.

Lemma eval_LIB_PATHS_unset (sys : gmap string PyVal) :
  sys !! "real_prefix" = None →
  eval_LIB_PATHS get_path sys = Raise (AttributeError "sys" "real_prefix").
Proof using Type. intros Hv. unfold eval_LIB_PATHS, getattr. by rewrite Hv. Qed.

End PathResolverFacts.

(** C2, where the code departs from the specification: with the attribute
    [sys.real_prefix] absent the module-level computation of [LIB_PATHS]
    raises [AttributeError], whereas with the attribute set to a false-like
    value ([None], [False] or the empty string) it completes and yields the
    three queried locations without a real-prefix entry. *)
Theorem absent_real_prefix_raises_falsy_completes
    (get_path : string -> option PyVal -> option string)
    (sys : gmap string PyVal) :
  eval_LIB_PATHS get_path (delete "real_prefix" sys)
  = Raise (AttributeError "sys" "real_prefix")
  ∧ eval_LIB_PATHS get_path (<["real_prefix" := PyNone]> sys)
    = Ok (tuple_not_None (lib_paths get_path))
  ∧ eval_LIB_PATHS get_path (<["real_prefix" := PyBool false]> sys)
    = Ok (tuple_not_None (lib_paths get_path))
  ∧ eval_LIB_PATHS get_path (<["real_prefix" := PyStr ""]> sys)
    = Ok (tuple_not_None (lib_paths get_path)).
Proof.
  split; [apply eval_LIB_PATHS_unset, lookup_delete_eq |].
  repeat split;
    (erewrite eval_LIB_PATHS_set by apply lookup_insert_eq); reflexivity.
Qed.

(** C3, amended: once [sys.real_prefix] is readable, [LIB_PATHS] holds
    exactly the non-absent results of the path queries: a string is an entry
    if and only if one of the three named locations resolved to it, or the
    indicator is truthy and the real-prefix query resolved to it. Absent
    results are dropped; nothing else is. *)
Theorem LIB_PATHS_holds_the_non_None_results
    (get_path : string -> option PyVal -> option string)
    (sys : gmap string PyVal) (v : PyVal) :
  sys !! "real_prefix" = Some v →
  ∃ paths, eval_LIB_PATHS get_path sys = Ok paths
    ∧ NoDup paths
    ∧ ∀ p : string, p ∈ paths ↔
        get_path "stdlib" None = Some p
        ∨ get_path "purelib" None = Some p
        ∨ get_path "platlib" None = Some p
        ∨ (truthy v = true ∧ get_path "stdlib" (Some v) = Some p).
Proof.
  intros Hv. eexists. split; [by apply eval_LIB_PATHS_set |]. split.
  - apply NoDup_tuple_not_None.
  - intros p.
    rewrite elem_of_tuple_not_None, elem_of_lib_paths_venv, elem_of_lib_paths.
    split.
    + intros [[H | [H | H]] | [Ht H]]; symmetry in H; tauto.
    + intros [H | [H | [H | [Ht H]]]]; symmetry in H; tauto.
Qed.

Lemma LIB_PATHS_holds_the_non_None_results_witness :
  sys_in_virtualenv !! "real_prefix" = Some (PyStr "/usr")
  ∧ ∃ paths, eval_LIB_PATHS gappy_get_path sys_in_virtualenv = Ok paths
      ∧ NoDup paths
      ∧ ∀ p : string, p ∈ paths ↔
          gappy_get_path "stdlib" None = Some p
          ∨ gappy_get_path "purelib" None = Some p
          ∨ gappy_get_path "platlib" None = Some p
          ∨ (truthy (PyStr "/usr") = true
             ∧ gappy_get_path "stdlib" (Some (PyStr "/usr")) = Some p).
Proof.
  split; [reflexivity |].
  apply (LIB_PATHS_holds_the_non_None_results gappy_get_path
           sys_in_virtualenv (PyStr "/usr")).
  reflexivity.
Defined.

(** C3, counterexample to the sentence that [LIB_PATHS] never holds an
    empty string: on a runtime whose query for the platform-specific
    location returns the empty string, the import succeeds and the empty
    string is an entry of [LIB_PATHS]. *)
Lemma LIB_PATHS_keeps_an_empty_result :
  ∃ paths, eval_LIB_PATHS gappy_get_path sys_real_prefix_None = Ok paths
           ∧ "" ∈ paths.
Proof.
  eexists. split; [vm_compute; reflexivity |].
  apply list_elem_of_In. simpl. tauto.
Qed.

(** ** Default code filter *)

Lemma prefix_begins_with (p s : string) :
  String.prefix p s = true ↔ begins_with s p.
Proof.
  unfold begins_with. revert s.
  induction p as [| a p IH]; intros s; simpl.
  - destruct s; (split; [intros _; eexists; reflexivity | reflexivity]).
  - destruct s as [| b s]; simpl.
    + split; [discriminate | intros [rest Hrest]; discriminate].
    + destruct (Ascii.ascii_dec a b) as [-> | Hne].
      * rewrite IH. split; intros [rest Hrest]; exists rest.
        -- by rewrite Hrest.
        -- by injection Hrest.
      * split; [discriminate |].
        intros [rest Hrest]. injection Hrest as Hab _. congruence.
Qed.

Lemma startswith_true (s : string) (prefixes : list string) :
  startswith s prefixes = true ↔ ∃ p, p ∈ prefixes ∧ begins_with s p.
Proof.
  unfold startswith. rewrite existsb_exists.
  split; intros (p & Hin & Hp); exists p.
  - split; [by apply list_elem_of_In | by apply prefix_begins_with].
  - split; [by apply list_elem_of_In | by apply prefix_begins_with].
Qed.

Lemma startswith_false (s : string) (prefixes : list string) :
  startswith s prefixes = false ↔ ∀ p, p ∈ prefixes → ¬ begins_with s p.
Proof.
  rewrite <- not_true_iff_false, startswith_true. split.
  - intros Hno p Hin Hp. apply Hno. by exists p.
  - intros Hall (p & Hin & Hp). by apply (Hall p).
Qed.

(** What a call of the filter amounts to: a boolean, in an unchanged world. *)
Lemma default_code_filter_run {Ext} (code : CodeType) (w : World Ext) :
  default_code_filter code w
  = (Ok match co_filename code with
        | None => false
        | Some f => negb (String.eqb f "") && negb (startswith f (LIB_PATHS w))
        end, w).
Proof.
  unfold default_code_filter.
  destruct (co_filename code) as [f |]; [| reflexivity].
  destruct (String.eqb f ""); reflexivity.
Qed.

(** C1: a call of [default_code_filter] returns a boolean, which is [True]
    if and only if [co_filename] is present, is not the empty string and
    begins with no entry of [LIB_PATHS]; with [co_filename] absent or empty
    it is [False]. *)
Theorem default_code_filter_true_iff {Ext} (code : CodeType) (w : World Ext) :
  ∃ b : bool, default_code_filter code w = (Ok b, w)
    ∧ (b = true ↔
         ∃ f, co_filename code = Some f ∧ f ≠ ""
              ∧ ∀ p, p ∈ LIB_PATHS w → ¬ begins_with f p)
    ∧ (co_filename code = None ∨ co_filename code = Some "" → b = false).
Proof.
  eexists. split; [apply default_code_filter_run |].
  destruct (co_filename code) as [f |]; simpl.
  - split.
    + rewrite andb_true_iff, !negb_true_iff, String.eqb_neq, startswith_false.
      split.
      * intros [Hne Hno]. by exists f.
      * intros (f' & Hf' & Hne & Hno). by simplify_eq.
    + intros [Habs | Hempty]; [discriminate |]. by simplify_eq.
  - split; [| reflexivity].
    split; [discriminate | intros (f & Hf & _); discriminate].
Qed.

(** C9: [default_code_filter] is a deterministic, side-effect-free
    predicate: two calls on code objects with equal [co_filename], in worlds
    with the same [LIB_PATHS], return the same boolean, none raises, and each
    leaves its world as it found it. *)
Theorem default_code_filter_pure {Ext} (c1 c2 : CodeType) (w1 w2 : World Ext) :
  co_filename c1 = co_filename c2 →
  LIB_PATHS w1 = LIB_PATHS w2 →
  ∃ b : bool, default_code_filter c1 w1 = (Ok b, w1)
              ∧ default_code_filter c2 w2 = (Ok b, w2).
Proof.
  intros Hfile Hpaths. eexists.
  split; [apply default_code_filter_run |].
  rewrite default_code_filter_run. by rewrite Hfile, Hpaths.
Qed.

Lemma default_code_filter_pure_witness :
  ∃ b : bool,
    default_code_filter code_app_main (sample_world ∅ sample_LIB_PATHS)
    = (Ok b, sample_world ∅ sample_LIB_PATHS)
    ∧ default_code_filter code_app_helper
        (sample_world {[ "MT_DB_PATH" := "/tmp/traces.db" ]} sample_LIB_PATHS)
      = (Ok b, sample_world {[ "MT_DB_PATH" := "/tmp/traces.db" ]}
                 sample_LIB_PATHS).
Proof.
  apply (default_code_filter_pure code_app_main code_app_helper
           (sample_world ∅ sample_LIB_PATHS)
           (sample_world {[ "MT_DB_PATH" := "/tmp/traces.db" ]}
              sample_LIB_PATHS)); reflexivity.
Defined.

(** C10: the prefix test is on characters, not on path components: for an
    entry [P] of [LIB_PATHS] and a code object whose [co_filename] is [P]
    followed by any characters at all, such as ["-extra/f.py"] in a sibling
    directory, the filter returns [False]. *)
Theorem default_code_filter_plain_string_prefix {Ext} (w : World Ext)
    (P rest : string) (code : CodeType) :
  P ∈ LIB_PATHS w →
  co_filename code = Some (P +:+ rest) →
  default_code_filter code w = (Ok false, w).
Proof.
  intros Hin Hfile. rewrite default_code_filter_run, Hfile.
  replace (startswith (P +:+ rest) (LIB_PATHS w)) with true.
  - by rewrite andb_false_r.
  - symmetry. apply startswith_true. exists P. split; [done | by exists rest].
Qed.

Lemma default_code_filter_plain_string_prefix_witness :
  "/venv/lib/python3.6" ∈ LIB_PATHS (sample_world ∅ sample_LIB_PATHS)
  ∧ co_filename code_in_sibling_dir
    = Some ("/venv/lib/python3.6" +:+ "-extra/f.py")
  ∧ default_code_filter code_in_sibling_dir (sample_world ∅ sample_LIB_PATHS)
    = (Ok false, sample_world ∅ sample_LIB_PATHS).
Proof.
  assert (Hin : "/venv/lib/python3.6"
                ∈ LIB_PATHS (sample_world ∅ sample_LIB_PATHS))
    by (apply list_elem_of_In; simpl; tauto).
  split; [exact Hin |]. split; [reflexivity |].
  apply (default_code_filter_plain_string_prefix
           (sample_world ∅ sample_LIB_PATHS)
           "/venv/lib/python3.6" "-extra/f.py" code_in_sibling_dir Hin).
  reflexivity.
Defined.

(** ** The configuration contract *)

Section ConfigFacts.

Context {Ext CallTraceStore CallTraceLogger TypeRewriter : Type}.
Variable CallTraceStoreLogger : CallTraceStore -> CallTraceLogger.
Variable SQLiteStore_make_store : string -> Py Ext CallTraceStore.
Variable DEFAULT_REWRITER : TypeRewriter.

Local Abbreviation Cls := (ClassBody Ext CallTraceStore CallTraceLogger TypeRewriter).
Local Abbreviation Cfg := (Config Ext CallTraceStore CallTraceLogger TypeRewriter).

Lemma Config_trace_logger_run (store : Py Ext CallTraceStore) (w : World Ext) :
  Config_trace_logger CallTraceStoreLogger store w
  = match store w with
    | (Ok s, w') => (Ok (CallTraceStoreLogger s), w')
    | (Raise e, w') => (Raise e, w')
    end.
Proof using Type.
  unfold Config_trace_logger, mbind, py_bind.
  destruct (store w) as [[s | e] w']; reflexivity.
Qed.

Lemma instantiate_complete (cls : Cls) (rewriter : Py Ext TypeRewriter)
    (store : Py Ext CallTraceStore) :
  def_type_rewriter cls = Some rewriter →
  def_trace_store cls = Some store →
  instantiate CallTraceStoreLogger cls
  = Ok {| type_rewriter := rewriter;
          trace_store := store;
          trace_logger :=
            default (Config_trace_logger CallTraceStoreLogger store)
              (def_trace_logger cls);
          code_filter := default Config_code_filter (def_code_filter cls);
          sample_rate := default Config_sample_rate (def_sample_rate cls) |}.
Proof using Type. intros Hr Hs. unfold instantiate. by rewrite Hr, Hs. Qed.

Lemma instantiate_abstract (cls : Cls) :
  def_trace_store cls = None ∨ def_type_rewriter cls = None →
  instantiate CallTraceStoreLogger cls
  = Raise (TypeError_abstract (abstract_methods cls)).
Proof using Type.
  unfold instantiate.
  destruct (def_type_rewriter cls), (def_trace_store cls);
    intros [H | H]; (discriminate || reflexivity).
Qed.

Lemma elem_of_abstract_methods (cls : Cls) (name : string) :
  name ∈ abstract_methods cls ↔
  (name = "trace_store" ∧ def_trace_store cls = None)
  ∨ (name = "type_rewriter" ∧ def_type_rewriter cls = None).
Proof using Type.
  clear CallTraceStoreLogger SQLiteStore_make_store DEFAULT_REWRITER.
  unfold abstract_methods.
  destruct (def_trace_store cls), (def_type_rewriter cls); simpl;
    rewrite ?elem_of_cons, ?elem_of_nil; intuition congruence.
Qed.

Lemma DEFAULT_CONFIG_built :
  DEFAULT_CONFIG CallTraceStoreLogger SQLiteStore_make_store DEFAULT_REWRITER
  = Ok {| type_rewriter := DefaultConfig_type_rewriter DEFAULT_REWRITER;
          trace_store := DefaultConfig_trace_store SQLiteStore_make_store;
          trace_logger :=
            Config_trace_logger CallTraceStoreLogger
              (DefaultConfig_trace_store SQLiteStore_make_store);
          code_filter := DefaultConfig_code_filter;
          sample_rate := Config_sample_rate |}.
Proof using Type. reflexivity. Qed.

Lemma DefaultConfig_trace_store_run (w : World Ext) :
  DefaultConfig_trace_store SQLiteStore_make_store w
  = SQLiteStore_make_store
      (default "monkeytype.sqlite3" (os_environ w !! "MT_DB_PATH")) w.
Proof using Type. reflexivity. Qed.

(** C4: the default configuration is built, and its [trace_store] hands
    [SQLiteStore.make_store] the value of [MT_DB_PATH] when the environment
    has that variable, and the literal ["monkeytype.sqlite3"] when it has
    not; the call then is whatever [make_store] does on that path. *)
Theorem DefaultConfig_trace_store_path :
  ∃ cfg : Cfg,
    DEFAULT_CONFIG CallTraceStoreLogger SQLiteStore_make_store DEFAULT_REWRITER
    = Ok cfg
    ∧ ∀ w : World Ext,
        (∀ v, os_environ w !! "MT_DB_PATH" = Some v →
              trace_store cfg w = SQLiteStore_make_store v w)
        ∧ (os_environ w !! "MT_DB_PATH" = None →
           trace_store cfg w = SQLiteStore_make_store "monkeytype.sqlite3" w).
Proof using Type.
  eexists. split; [apply DEFAULT_CONFIG_built |].
  intros w. simpl. rewrite DefaultConfig_trace_store_run.
  split; [intros v Hv | intros Hv]; by rewrite Hv.
Qed.

(** C5: a class that defines only [type_rewriter] and [trace_store] is
    instantiated without error; its [code_filter] and [sample_rate] return
    [None] and leave the world alone; its [trace_logger] calls the class's
    own [trace_store] and returns [CallTraceStoreLogger] of the store that
    call returned, raising only what [trace_store] itself raises. *)
Theorem bare_config_defaults (rewriter : Py Ext TypeRewriter)
    (store : Py Ext CallTraceStore) :
  ∃ cfg : Cfg,
    instantiate CallTraceStoreLogger (bare_config rewriter store) = Ok cfg
    ∧ type_rewriter cfg = rewriter
    ∧ trace_store cfg = store
    ∧ (∀ w, code_filter cfg w = (Ok None, w))
    ∧ (∀ w, sample_rate cfg w = (Ok None, w))
    ∧ (∀ w s w', trace_store cfg w = (Ok s, w') →
         trace_logger cfg w = (Ok (CallTraceStoreLogger s), w'))
    ∧ (∀ w e w', trace_logger cfg w = (Raise e, w') →
         trace_store cfg w = (Raise e, w')).
Proof using Type.
  eexists. split; [by apply instantiate_complete |]. simpl.
  repeat split.
  - intros w s w' Hs. by rewrite Config_trace_logger_run, Hs.
  - intros w e w'. rewrite Config_trace_logger_run.
    destruct (store w) as [[s | e0] w0]; [discriminate |].
    intros [= -> ->]. reflexivity.
Qed.

(** C6: [DefaultConfig.code_filter()] returns [default_code_filter] itself,
    so the returned predicate agrees with [default_code_filter] on every
    code object in every world, and the result is not [None], which is what
    the inherited [Config.code_filter] would have returned. *)
Theorem DefaultConfig_code_filter_is_default :
  ∃ cfg : Cfg,
    DEFAULT_CONFIG CallTraceStoreLogger SQLiteStore_make_store DEFAULT_REWRITER
    = Ok cfg
    ∧ ∀ w : World Ext,
        ∃ f : CodeFilter Ext,
          code_filter cfg w = (Ok (Some f), w)
          ∧ f = default_code_filter
          ∧ (∀ code w', f code w' = default_code_filter code w')
          ∧ code_filter cfg w ≠ Config_code_filter w.
Proof using Type.
  eexists. split; [apply DEFAULT_CONFIG_built |].
  intros w. exists default_code_filter. simpl.
  repeat split. intros Heq. inversion Heq.
Qed.

(** C7: every call of [DefaultConfig.type_rewriter()] returns the module
    constant [DEFAULT_REWRITER] and changes nothing in the world, so that
    two calls in a row return that one object twice. *)
Theorem DefaultConfig_type_rewriter_shared :
  ∃ cfg : Cfg,
    DEFAULT_CONFIG CallTraceStoreLogger SQLiteStore_make_store DEFAULT_REWRITER
    = Ok cfg
    ∧ ∀ w : World Ext,
        type_rewriter cfg w = (Ok DEFAULT_REWRITER, w)
        ∧ (r1 ← type_rewriter cfg; r2 ← type_rewriter cfg; mret (r1, r2)) w
          = (Ok (DEFAULT_REWRITER, DEFAULT_REWRITER), w).
Proof using Type.
  eexists. split; [apply DEFAULT_CONFIG_built |].
  intros w. split; reflexivity.
Qed.

(** C8: a class that leaves [trace_store] or [type_rewriter] undefined
    cannot be instantiated: calling it raises the abstract-class
    [TypeError], which names exactly the accessors left undefined, and no
    instance is returned. *)
Theorem instantiate_missing_required (cls : Cls) :
  def_trace_store cls = None ∨ def_type_rewriter cls = None →
  ∃ missing : list string,
    instantiate CallTraceStoreLogger cls = Raise (TypeError_abstract missing)
    ∧ missing ≠ []
    ∧ ∀ name, name ∈ missing ↔
        (name = "trace_store" ∧ def_trace_store cls = None)
        ∨ (name = "type_rewriter" ∧ def_type_rewriter cls = None).
Proof using Type.
  intros Hmissing. exists (abstract_methods cls).
  split; [by apply instantiate_abstract |].
  split; [| apply elem_of_abstract_methods].
  unfold abstract_methods.
  destruct Hmissing as [-> | ->]; [done |].
  by destruct (def_trace_store cls).
Qed.

End ConfigFacts.

Lemma bare_config_defaults_witness :
  ∃ cfg : Config unit string string unit,
    instantiate named_logger (bare_config (mret tt) (path_store "traces.db"))
    = Ok cfg
    ∧ ∀ w, trace_logger cfg w = (Ok "logger:traces.db", w).
Proof.
  destruct (bare_config_defaults named_logger (mret tt)
              (path_store "traces.db"))
    as (cfg & Hnew & _ & Hstore & _ & _ & Hlogger & _).
  exists cfg. split; [exact Hnew |].
  intros w. apply (Hlogger w "traces.db" w). by rewrite Hstore.
Defined.

Lemma DefaultConfig_trace_store_path_witness :
  ∃ cfg : Config unit string string unit,
    DEFAULT_CONFIG named_logger path_store tt = Ok cfg
    ∧ trace_store cfg
        (sample_world {[ "MT_DB_PATH" := "/tmp/traces.db" ]} sample_LIB_PATHS)
      = path_store "/tmp/traces.db"
          (sample_world {[ "MT_DB_PATH" := "/tmp/traces.db" ]}
             sample_LIB_PATHS)
    ∧ trace_store cfg (sample_world ∅ sample_LIB_PATHS)
      = path_store "monkeytype.sqlite3" (sample_world ∅ sample_LIB_PATHS).
Proof.
  destruct (DefaultConfig_trace_store_path named_logger path_store tt)
    as (cfg & Hnew & Hpath).
  exists cfg. split; [exact Hnew |]. split.
  - apply (Hpath (sample_world {[ "MT_DB_PATH" := "/tmp/traces.db" ]}
                    sample_LIB_PATHS)).
    reflexivity.
  - apply (Hpath (sample_world ∅ sample_LIB_PATHS)). reflexivity.
Defined.

Lemma instantiate_missing_required_witness :
  (def_trace_store class_without_store = None
   ∨ def_type_rewriter class_without_store = None)
  ∧ ∃ missing : list string,
      instantiate named_logger class_without_store
      = Raise (TypeError_abstract missing)
      ∧ missing ≠ []
      ∧ ∀ name, name ∈ missing ↔
          (name = "trace_store" ∧ def_trace_store class_without_store = None)
          ∨ (name = "type_rewriter"
             ∧ def_type_rewriter class_without_store = None).
Proof.
  split; [left; reflexivity |].
  apply (instantiate_missing_required named_logger class_without_store).
  left. reflexivity.
Defined.

(** * Further properties of the module *)

(** ** The filter as a function of [LIB_PATHS] *)

Lemma default_code_filter_false_of_prefix {Ext} (w : World Ext)
    (p f : string) (code : CodeType) :
  p ∈ LIB_PATHS w → begins_with f p → co_filename code = Some f →
  default_code_filter code w = (Ok false, w).
Proof.
  intros Hin Hp Hfile. rewrite default_code_filter_run, Hfile.
  replace (startswith f (LIB_PATHS w)) with true.
  - by rewrite andb_false_r.
  - symmetry. apply startswith_true. by exists p.
Qed.

Lemma begins_with_empty (f : string) : begins_with f "".
Proof. by exists f. Qed.

Lemma begins_with_extend (f p rest : string) :
  begins_with f p → begins_with (f +:+ rest) p.
Proof.
  intros [r ->]. exists (r +:+ rest).
  induction p as [| a p IH]; [done |].
  change (String a ((p +:+ r) +:+ rest) = String a (p +:+ r +:+ rest)).
  by f_equal.
Qed.

Lemma append_eq_empty (f rest : string) : f +:+ rest = "" → f = "".
Proof. by destruct f. Qed.

(** X1: an empty string among the entries of [LIB_PATHS] makes the filter
    reject every code object, whatever its file name. *)
Theorem empty_entry_rejects_every_code {Ext} (w : World Ext) (code : CodeType) :
  "" ∈ LIB_PATHS w →
  default_code_filter code w = (Ok false, w).
Proof.
  intros Hin. destruct (co_filename code) as [f |] eqn:Hfile.
  - by apply (default_code_filter_false_of_prefix w "" f);
      [| apply begins_with_empty |].
  - rewrite default_code_filter_run. by rewrite Hfile.
Qed.

Lemma empty_entry_rejects_every_code_witness :
  "" ∈ LIB_PATHS (sample_world ∅ ["/venv/lib/python3.6"; ""])
  ∧ default_code_filter code_app_main
      (sample_world ∅ ["/venv/lib/python3.6"; ""])
    = (Ok false, sample_world ∅ ["/venv/lib/python3.6"; ""]).
Proof.
  assert (Hin : "" ∈ LIB_PATHS (sample_world ∅ ["/venv/lib/python3.6"; ""]))
    by (apply list_elem_of_In; simpl; tauto).
  split; [exact Hin |].
  apply (empty_entry_rejects_every_code
           (sample_world ∅ ["/venv/lib/python3.6"; ""]) code_app_main Hin).
Defined.

(** X2: with [LIB_PATHS] empty the filter accepts exactly the code objects
    that have a non-empty file name. *)
Theorem no_entries_accepts_named_code {Ext} (w : World Ext) (code : CodeType) :
  LIB_PATHS w = [] →
  ∃ b : bool, default_code_filter code w = (Ok b, w)
    ∧ (b = true ↔ ∃ f, co_filename code = Some f ∧ f ≠ "").
Proof.
  intros Hnil. eexists. split; [apply default_code_filter_run |].
  rewrite Hnil. destruct (co_filename code) as [f |]; simpl.
  - rewrite andb_true_r, negb_true_iff, String.eqb_neq. split.
    + intros Hne. by exists f.
    + intros (f' & Hf' & Hne). by simplify_eq.
  - split; [discriminate | intros (f & Hf & _); discriminate].
Qed.

Lemma no_entries_accepts_named_code_witness :
  LIB_PATHS (sample_world ∅ []) = []
  ∧ ∃ b : bool,
      default_code_filter code_in_sibling_dir (sample_world ∅ [])
      = (Ok b, sample_world ∅ [])
      ∧ (b = true ↔ ∃ f, co_filename code_in_sibling_dir = Some f ∧ f ≠ "").
Proof.
  split; [reflexivity |].
  apply (no_entries_accepts_named_code (sample_world ∅ [])
           code_in_sibling_dir).
  reflexivity.
Defined.

Lemma default_code_filter_antitone {Ext} (w1 w2 : World Ext)
    (code : CodeType) :
  (∀ p, p ∈ LIB_PATHS w1 → p ∈ LIB_PATHS w2) →
  default_code_filter code w2 = (Ok true, w2) →
  default_code_filter code w1 = (Ok true, w1).
Proof.
  intros Hsub. rewrite !default_code_filter_run.
  destruct (co_filename code) as [f |]; [| intros [= ?]; discriminate].
  intros [= Hb]. apply andb_true_iff in Hb as [Hne Hno].
  rewrite Hne. simpl. f_equal. f_equal.
  apply negb_true_iff. apply negb_true_iff in Hno.
  apply startswith_false. intros p Hin.
  by apply (proj1 (startswith_false f (LIB_PATHS w2)) Hno), Hsub.
Qed.

(** X3: more entries in [LIB_PATHS] never admit more code: a code object
    the filter accepts under a list of entries is accepted under any list
    whose entries are all among them. *)
Theorem fewer_entries_accept_more {Ext} (w1 w2 : World Ext) (code : CodeType) :
  (∀ p, p ∈ LIB_PATHS w1 → p ∈ LIB_PATHS w2) →
  default_code_filter code w2 = (Ok true, w2) →
  default_code_filter code w1 = (Ok true, w1).
Proof. apply default_code_filter_antitone. Qed.

Lemma fewer_entries_accept_more_witness :
  (∀ p, p ∈ LIB_PATHS (sample_world ∅ ["/venv/lib/python3.6"])
        → p ∈ LIB_PATHS (sample_world ∅ sample_LIB_PATHS))
  ∧ default_code_filter code_app_main (sample_world ∅ sample_LIB_PATHS)
    = (Ok true, sample_world ∅ sample_LIB_PATHS)
  ∧ default_code_filter code_app_main
      (sample_world ∅ ["/venv/lib/python3.6"])
    = (Ok true, sample_world ∅ ["/venv/lib/python3.6"]).
Proof.
  assert (Hsub : ∀ p, p ∈ LIB_PATHS (sample_world ∅ ["/venv/lib/python3.6"])
                      → p ∈ LIB_PATHS (sample_world ∅ sample_LIB_PATHS)).
  { intros p Hp. apply list_elem_of_In. apply list_elem_of_In in Hp.
    simpl in *. tauto. }
  split; [exact Hsub |]. split; [reflexivity |].
  apply (fewer_entries_accept_more (sample_world ∅ ["/venv/lib/python3.6"])
           (sample_world ∅ sample_LIB_PATHS) code_app_main Hsub).
  reflexivity.
Defined.

Lemma startswith_same_entries (f : string) (l1 l2 : list string) :
  (∀ p, p ∈ l1 ↔ p ∈ l2) → startswith f l1 = startswith f l2.
Proof.
  intros Hsame. apply eq_true_iff_eq. rewrite !startswith_true.
  split; intros (p & Hin & Hp); exists p; (split; [by apply Hsame | done]).
Qed.

(** X4: the filter sees [LIB_PATHS] as a set: two lists with the same
    entries, in whatever order and with whatever repetitions, give the same
    answer on every code object. *)
Theorem entries_count_as_a_set {Ext} (w1 w2 : World Ext) (code : CodeType) :
  (∀ p, p ∈ LIB_PATHS w1 ↔ p ∈ LIB_PATHS w2) →
  ∃ b : bool, default_code_filter code w1 = (Ok b, w1)
              ∧ default_code_filter code w2 = (Ok b, w2).
Proof.
  intros Hsame. eexists. split; [apply default_code_filter_run |].
  rewrite default_code_filter_run.
  destruct (co_filename code) as [f |]; [| done].
  by rewrite (startswith_same_entries f _ _ Hsame).
Qed.

Lemma entries_count_as_a_set_witness :
  ∃ b : bool,
    default_code_filter code_in_sibling_dir
      (sample_world ∅ ["/opt/lib"; "/venv/lib/python3.6"])
    = (Ok b, sample_world ∅ ["/opt/lib"; "/venv/lib/python3.6"])
    ∧ default_code_filter code_in_sibling_dir
        (sample_world ∅ ["/venv/lib/python3.6"; "/opt/lib";
                         "/venv/lib/python3.6"])
      = (Ok b, sample_world ∅ ["/venv/lib/python3.6"; "/opt/lib";
                               "/venv/lib/python3.6"]).
Proof.
  apply (entries_count_as_a_set
           (sample_world ∅ ["/opt/lib"; "/venv/lib/python3.6"])
           (sample_world ∅ ["/venv/lib/python3.6"; "/opt/lib";
                            "/venv/lib/python3.6"])
           code_in_sibling_dir).
  intros p. simpl. rewrite !list_elem_of_In. simpl. tauto.
Defined.

(** X5: what the filter rejects it rejects with everything beneath it: if a
    code object with a non-empty file name [f] is rejected, so is every code
    object whose file name is [f] followed by more characters. *)
Theorem rejected_name_rejects_longer_names {Ext} (w : World Ext)
    (f rest : string) (c1 c2 : CodeType) :
  co_filename c1 = Some f → f ≠ "" →
  co_filename c2 = Some (f +:+ rest) →
  default_code_filter c1 w = (Ok false, w) →
  default_code_filter c2 w = (Ok false, w).
Proof.
  intros Hc1 Hne Hc2. rewrite (default_code_filter_run c1), Hc1.
  intros [= Hb]. apply andb_false_iff in Hb as [Hb | Hb].
  - apply negb_false_iff, String.eqb_eq in Hb. done.
  - apply negb_false_iff, startswith_true in Hb as (p & Hin & Hp).
    apply (default_code_filter_false_of_prefix w p (f +:+ rest)); [done | | done].
    by apply begins_with_extend.
Qed.

Lemma rejected_name_rejects_longer_names_witness :
  default_code_filter (code_at "/venv/lib/python3.6/os.py")
    (sample_world ∅ sample_LIB_PATHS)
  = (Ok false, sample_world ∅ sample_LIB_PATHS)
  ∧ default_code_filter (code_at "/venv/lib/python3.6/os.py.orig")
      (sample_world ∅ sample_LIB_PATHS)
    = (Ok false, sample_world ∅ sample_LIB_PATHS).
Proof.
  split; [reflexivity |].
  apply (rejected_name_rejects_longer_names (sample_world ∅ sample_LIB_PATHS)
           "/venv/lib/python3.6/os.py" ".orig"
           (code_at "/venv/lib/python3.6/os.py")
           (code_at "/venv/lib/python3.6/os.py.orig"));
    [reflexivity | discriminate | reflexivity | reflexivity].
Defined.

(** ** The path resolver and the filter together *)

Lemma length_omap_id_le (l : list (option string)) :
  (List.length (omap id l) ≤ List.length l)%nat.
Proof. induction l as [| [p |] l IH]; csimpl; lia. Qed.

Lemma size_add_le (o : option string) (s : gset (option string)) :
  (size ({[ o ]} ∪ s) ≤ S (size s))%nat.
Proof.
  rewrite size_union_alt, size_singleton.
  assert (size (s ∖ {[ o ]}) ≤ size s)%nat; [| lia].
  apply subseteq_size. intros x Hx. by apply elem_of_difference in Hx as [? _].
Qed.

Lemma size_lib_paths_le
    (get_path : string -> option PyVal -> option string) :
  (size (lib_paths get_path) ≤ 3)%nat.
Proof.
  set (a := get_path "stdlib" None). set (b := get_path "purelib" None).
  set (c := get_path "platlib" None).
  assert (lib_paths get_path = {[ a ]} ∪ ({[ b ]} ∪ ({[ c ]} ∪ ∅))) as ->
    by reflexivity.
  pose proof (size_add_le a ({[ b ]} ∪ ({[ c ]} ∪ ∅))) as Ha.
  pose proof (size_add_le b ({[ c ]} ∪ ∅)) as Hb.
  pose proof (size_add_le c ∅) as Hc.
  rewrite size_empty in Hc. lia.
Qed.

Lemma length_tuple_not_None_le (s : gset (option string)) :
  (List.length (tuple_not_None s) ≤ size s)%nat.
Proof. apply length_omap_id_le. Qed.

Lemma resolved_location_tuple
    (get_path : string -> option PyVal -> option string) (v : PyVal)
    (P : string) :
  P ∈ tuple_not_None (lib_paths_venv get_path v)
  ↔ resolved_location get_path v P.
Proof.
  rewrite elem_of_tuple_not_None, elem_of_lib_paths_venv, elem_of_lib_paths.
  unfold resolved_location. split.
  - intros [[H | [H | H]] | [Ht H]]; symmetry in H; tauto.
  - intros [H | [H | [H | [Ht H]]]]; symmetry in H; tauto.
Qed.

Lemma eval_LIB_PATHS_Ok_inv
    (get_path : string -> option PyVal -> option string)
    (sys : gmap string PyVal) (v : PyVal) (paths : list string) :
  sys !! "real_prefix" = Some v →
  eval_LIB_PATHS get_path sys = Ok paths →
  paths = tuple_not_None (lib_paths_venv get_path v).
Proof.
  intros Hv. rewrite (eval_LIB_PATHS_set get_path sys v Hv). by intros [= <-].
Qed.

(** X6: [LIB_PATHS] never has more than four entries, and never more than
    three when the indicator [sys.real_prefix] is false-like. *)
Theorem LIB_PATHS_has_at_most_four_entries
    (get_path : string -> option PyVal -> option string)
    (sys : gmap string PyVal) (v : PyVal) (paths : list string) :
  sys !! "real_prefix" = Some v →
  eval_LIB_PATHS get_path sys = Ok paths →
  (List.length paths ≤ 4)%nat
  ∧ (truthy v = false → (List.length paths ≤ 3)%nat).
Proof.
  intros Hv Hpaths.
  rewrite (eval_LIB_PATHS_Ok_inv get_path sys v paths Hv Hpaths).
  pose proof (size_lib_paths_le get_path) as H3.
  pose proof (length_tuple_not_None_le (lib_paths_venv get_path v)) as Hlen.
  unfold lib_paths_venv in *. destruct (truthy v).
  - pose proof (size_add_le (get_path "stdlib" (Some v))
                  (lib_paths get_path)).
    split; [lia | discriminate].
  - split; [lia | intros _; lia].
Qed.

Lemma LIB_PATHS_has_at_most_four_entries_witness :
  ∃ paths, eval_LIB_PATHS posix_get_path sys_in_virtualenv = Ok paths
           ∧ (List.length paths ≤ 4)%nat.
Proof.
  eexists. split; [vm_compute; reflexivity |].
  apply (LIB_PATHS_has_at_most_four_entries posix_get_path sys_in_virtualenv
           (PyStr "/usr")); [reflexivity | vm_compute; reflexivity].
Defined.

(** X7: a real prefix whose standard-library query gives nothing, or gives
    a location already among the three, changes nothing: [LIB_PATHS] has
    the same entries, each once, as with the indicator set to [None]. *)
Theorem redundant_real_prefix_adds_nothing
    (get_path : string -> option PyVal -> option string)
    (sys : gmap string PyVal) (v : PyVal) :
  get_path "stdlib" (Some v) = None
  ∨ get_path "stdlib" (Some v) ∈ lib_paths get_path →
  ∃ with_prefix without,
    eval_LIB_PATHS get_path (<["real_prefix" := v]> sys) = Ok with_prefix
    ∧ eval_LIB_PATHS get_path (<["real_prefix" := PyNone]> sys) = Ok without
    ∧ with_prefix ≡ₚ without.
Proof.
  intros Hred. do 2 eexists.
  split; [apply eval_LIB_PATHS_set, lookup_insert_eq |].
  split; [apply eval_LIB_PATHS_set, lookup_insert_eq |].
  apply NoDup_Permutation; [apply NoDup_tuple_not_None .. |].
  intros p. rewrite !elem_of_tuple_not_None, !elem_of_lib_paths_venv.
  simpl. split.
  - intros [Hp | [_ Hp]]; [by left |]. left.
    destruct Hred as [Hnone | Hin]; [congruence | by rewrite Hp].
  - intros [Hp | [Hf _]]; [by left | discriminate].
Qed.

Lemma redundant_real_prefix_adds_nothing_witness :
  ∃ with_prefix without,
    eval_LIB_PATHS posix_get_path (<["real_prefix" := PyStr "/venv"]> ∅)
    = Ok with_prefix
    ∧ eval_LIB_PATHS posix_get_path (<["real_prefix" := PyNone]> ∅)
      = Ok without
    ∧ with_prefix ≡ₚ without.
Proof.
  apply (redundant_real_prefix_adds_nothing posix_get_path ∅ (PyStr "/venv")).
  right. apply elem_of_lib_paths. left. reflexivity.
Defined.

(** X8: when the runtime reports none of the locations, the import still
    succeeds and [LIB_PATHS] is the empty tuple. *)
Theorem nothing_resolved_gives_empty_LIB_PATHS
    (get_path : string -> option PyVal -> option string)
    (sys : gmap string PyVal) (v : PyVal) :
  sys !! "real_prefix" = Some v →
  (∀ P, ¬ resolved_location get_path v P) →
  eval_LIB_PATHS get_path sys = Ok [].
Proof.
  intros Hv Hnone. rewrite (eval_LIB_PATHS_set get_path sys v Hv).
  f_equal. apply elem_of_nil_inv. intros P HP.
  by apply resolved_location_tuple, Hnone in HP.
Qed.

Lemma nothing_resolved_gives_empty_LIB_PATHS_witness :
  sys_in_virtualenv !! "real_prefix" = Some (PyStr "/usr")
  ∧ eval_LIB_PATHS silent_get_path sys_in_virtualenv = Ok [].
Proof.
  split; [reflexivity |].
  apply (nothing_resolved_gives_empty_LIB_PATHS silent_get_path
           sys_in_virtualenv (PyStr "/usr")); [reflexivity |].
  intros P [H | [H | [H | [_ H]]]]; discriminate H.
Defined.

(** X9: after a successful import the filter accepts a code object exactly
    when its file name is present, is not empty, and begins with none of
    the locations the runtime resolved. *)
Theorem filter_after_import_excludes_resolved_locations {Ext}
    (get_path : string -> option PyVal -> option string)
    (sys : gmap string PyVal) (v : PyVal) (w : World Ext) (code : CodeType) :
  sys !! "real_prefix" = Some v →
  eval_LIB_PATHS get_path sys = Ok (LIB_PATHS w) →
  ∃ b : bool, default_code_filter code w = (Ok b, w)
    ∧ (b = true ↔
         ∃ f, co_filename code = Some f ∧ f ≠ ""
              ∧ ∀ P, resolved_location get_path v P → ¬ begins_with f P).
Proof.
  intros Hv Hpaths.
  pose proof (eval_LIB_PATHS_Ok_inv get_path sys v _ Hv Hpaths) as Heq.
  eexists. split; [apply default_code_filter_run |].
  destruct (co_filename code) as [f |]; simpl.
  - rewrite andb_true_iff, !negb_true_iff, String.eqb_neq, startswith_false.
    rewrite Heq. split.
    + intros [Hne Hno]. exists f. split; [done |]. split; [done |].
      intros P HP. by apply Hno, resolved_location_tuple.
    + intros (f' & Hf' & Hne & Hno). simplify_eq. split; [done |].
      intros P HP. by apply Hno, resolved_location_tuple.
  - split; [discriminate | intros (f & Hf & _); discriminate].
Qed.

Lemma filter_after_import_excludes_resolved_locations_witness :
  sys_in_virtualenv !! "real_prefix" = Some (PyStr "/usr")
  ∧ eval_LIB_PATHS posix_get_path sys_in_virtualenv
    = Ok (LIB_PATHS (imported_world posix_get_path sys_in_virtualenv))
  ∧ ∃ b : bool,
      default_code_filter (code_at "/usr/lib/python3.6/os.py")
        (imported_world posix_get_path sys_in_virtualenv)
      = (Ok b, imported_world posix_get_path sys_in_virtualenv)
      ∧ (b = true ↔
           ∃ f, co_filename (code_at "/usr/lib/python3.6/os.py") = Some f
                ∧ f ≠ ""
                ∧ ∀ P, resolved_location posix_get_path (PyStr "/usr") P
                       → ¬ begins_with f P).
Proof.
  split; [reflexivity |]. split; [vm_compute; reflexivity |].
  apply (filter_after_import_excludes_resolved_locations posix_get_path
           sys_in_virtualenv (PyStr "/usr")
           (imported_world posix_get_path sys_in_virtualenv)
           (code_at "/usr/lib/python3.6/os.py"));
    [reflexivity | vm_compute; reflexivity].
Defined.

(** X10: a truthy real prefix only adds exclusions: on the same runtime,
    whatever the filter accepts with the indicator truthy it also accepts
    with the indicator false-like. *)
Theorem real_prefix_only_adds_exclusions {Ext}
    (get_path : string -> option PyVal -> option string)
    (sys : gmap string PyVal) (v v0 : PyVal) (w w0 : World Ext)
    (code : CodeType) :
  truthy v0 = false →
  eval_LIB_PATHS get_path (<["real_prefix" := v]> sys) = Ok (LIB_PATHS w) →
  eval_LIB_PATHS get_path (<["real_prefix" := v0]> sys) = Ok (LIB_PATHS w0) →
  default_code_filter code w = (Ok true, w) →
  default_code_filter code w0 = (Ok true, w0).
Proof.
  intros Hfalsy Hw Hw0. apply default_code_filter_antitone.
  rewrite (eval_LIB_PATHS_Ok_inv get_path _ v _ (lookup_insert_eq _ _ _) Hw).
  rewrite (eval_LIB_PATHS_Ok_inv get_path _ v0 _ (lookup_insert_eq _ _ _) Hw0).
  intros p. rewrite !elem_of_tuple_not_None, !elem_of_lib_paths_venv.
  rewrite Hfalsy. intros [Hp | [Hf _]]; [by left | discriminate].
Qed.

Lemma real_prefix_only_adds_exclusions_witness :
  default_code_filter code_app_main
    (imported_world posix_get_path (<["real_prefix" := PyStr "/usr"]> ∅))
  = (Ok true,
     imported_world posix_get_path (<["real_prefix" := PyStr "/usr"]> ∅))
  ∧ default_code_filter code_app_main
      (imported_world posix_get_path (<["real_prefix" := PyStr ""]> ∅))
    = (Ok true,
       imported_world posix_get_path (<["real_prefix" := PyStr ""]> ∅)).
Proof.
  split; [vm_compute; reflexivity |].
  apply (real_prefix_only_adds_exclusions posix_get_path ∅
           (PyStr "/usr") (PyStr "")
           (imported_world posix_get_path (<["real_prefix" := PyStr "/usr"]> ∅))
           (imported_world posix_get_path (<["real_prefix" := PyStr ""]> ∅))
           code_app_main);
    [reflexivity | vm_compute; reflexivity | vm_compute; reflexivity
    | vm_compute; reflexivity].
Defined.

(** ** More on the configuration classes *)

Section ConfigMore.

Context {Ext CallTraceStore CallTraceLogger TypeRewriter : Type}.
Variable CallTraceStoreLogger : CallTraceStore -> CallTraceLogger.
Variable SQLiteStore_make_store : string -> Py Ext CallTraceStore.
Variable DEFAULT_REWRITER : TypeRewriter.

Local Abbreviation Cls := (ClassBody Ext CallTraceStore CallTraceLogger TypeRewriter).
Local Abbreviation Cfg := (Config Ext CallTraceStore CallTraceLogger TypeRewriter).


(** X12: [DefaultConfig] inherits [trace_logger]: a call resolves the store
    path from [MT_DB_PATH] (or the fallback), has [SQLiteStore.make_store]
    open it, and returns [CallTraceStoreLogger] on that store; it raises
    what [make_store] raises, and the world it leaves is the one
    [make_store] left. The inherited [sample_rate] returns [None]. *)
Theorem DefaultConfig_trace_logger_opens_store :
  ∃ cfg : Cfg,
    DEFAULT_CONFIG CallTraceStoreLogger SQLiteStore_make_store DEFAULT_REWRITER
    = Ok cfg
    ∧ ∀ w : World Ext,
        trace_logger cfg w
        = match SQLiteStore_make_store
                  (default "monkeytype.sqlite3" (os_environ w !! "MT_DB_PATH"))
                  w with
          | (Ok store, w') => (Ok (CallTraceStoreLogger store), w')
          | (Raise e, w') => (Raise e, w')
          end
        ∧ sample_rate cfg w = (Ok None, w).
Proof using Type.
  eexists. split; [apply DEFAULT_CONFIG_built |].
  intros w. simpl. split; [| reflexivity].
  by rewrite Config_trace_logger_run, DefaultConfig_trace_store_run.
Qed.

(** X13: the path [DefaultConfig.trace_store] opens depends on the world
    only through the variable [MT_DB_PATH]: in two worlds that agree on it,
    whatever else differs, [make_store] is handed the same path. *)
Theorem trace_store_path_depends_only_on_MT_DB_PATH (w1 w2 : World Ext) :
  os_environ w1 !! "MT_DB_PATH" = os_environ w2 !! "MT_DB_PATH" →
  ∃ (cfg : Cfg) (db_path : string),
    DEFAULT_CONFIG CallTraceStoreLogger SQLiteStore_make_store DEFAULT_REWRITER
    = Ok cfg
    ∧ trace_store cfg w1 = SQLiteStore_make_store db_path w1
    ∧ trace_store cfg w2 = SQLiteStore_make_store db_path w2.
Proof using Type.
  intros Hsame. do 2 eexists. split; [apply DEFAULT_CONFIG_built |].
  simpl. rewrite !DefaultConfig_trace_store_run, Hsame. done.
Qed.

(** X14: if [SQLiteStore.make_store] leaves [os.environ] alone, a second
    call of [DefaultConfig.trace_store], made in the world the first call
    left, opens the same path as the first. *)
Theorem trace_store_twice_opens_same_path (w : World Ext) :
  (∀ p w0, os_environ (SQLiteStore_make_store p w0).2 = os_environ w0) →
  ∃ (cfg : Cfg) (db_path : string),
    DEFAULT_CONFIG CallTraceStoreLogger SQLiteStore_make_store DEFAULT_REWRITER
    = Ok cfg
    ∧ trace_store cfg w = SQLiteStore_make_store db_path w
    ∧ trace_store cfg (trace_store cfg w).2
      = SQLiteStore_make_store db_path (trace_store cfg w).2.
Proof using Type.
  intros Henv. do 2 eexists. split; [apply DEFAULT_CONFIG_built |].
  simpl. split; [apply DefaultConfig_trace_store_run |].
  rewrite !DefaultConfig_trace_store_run. by rewrite Henv.
Qed.

End ConfigMore.

Lemma trace_store_path_depends_only_on_MT_DB_PATH_witness :
  ∃ (cfg : Config unit string string unit) (db_path : string),
    DEFAULT_CONFIG named_logger path_store tt = Ok cfg
    ∧ trace_store cfg
        (sample_world {[ "MT_DB_PATH" := "/tmp/traces.db" ]} sample_LIB_PATHS)
      = path_store db_path
          (sample_world {[ "MT_DB_PATH" := "/tmp/traces.db" ]}
             sample_LIB_PATHS)
    ∧ trace_store cfg
        (sample_world (<[ "HOME" := "/home/u" ]>
                         {[ "MT_DB_PATH" := "/tmp/traces.db" ]}) [])
      = path_store db_path
          (sample_world (<[ "HOME" := "/home/u" ]>
                           {[ "MT_DB_PATH" := "/tmp/traces.db" ]}) []).
Proof.
  apply (trace_store_path_depends_only_on_MT_DB_PATH named_logger path_store
           tt
           (sample_world {[ "MT_DB_PATH" := "/tmp/traces.db" ]}
              sample_LIB_PATHS)
           (sample_world (<[ "HOME" := "/home/u" ]>
                            {[ "MT_DB_PATH" := "/tmp/traces.db" ]}) [])).
  vm_compute. reflexivity.
Defined.

Lemma trace_store_twice_opens_same_path_witness :
  ∃ (cfg : Config unit string string unit) (db_path : string),
    DEFAULT_CONFIG named_logger path_store tt = Ok cfg
    ∧ trace_store cfg (sample_world ∅ sample_LIB_PATHS)
      = path_store db_path (sample_world ∅ sample_LIB_PATHS)
    ∧ trace_store cfg (trace_store cfg (sample_world ∅ sample_LIB_PATHS)).2
      = path_store db_path
          (trace_store cfg (sample_world ∅ sample_LIB_PATHS)).2.
Proof.
  apply (trace_store_twice_opens_same_path named_logger path_store tt
           (sample_world ∅ sample_LIB_PATHS)).
  intros p w0. reflexivity.
Defined.
